(** * python/main.py: the Dog class and the Animal/Cat hierarchy

    A shallow embedding of the script [python/main.py].  Python objects are
    records on a heap (a class tag and an attribute dictionary), the module
    namespace is a dictionary from names to values, the console is the
    character stream written so far, and every statement of the script is a
    computation in a state-and-exception monad. *)

From Stdlib Require Import ZArith String Ascii List DecimalString.
From stdpp Require Import base option gmap strings.

Local Open Scope string_scope.

(** ** Values, objects and the interpreter state *)

(** The classes the script defines ([class Dog], [class Animal],
    [class Cat(Animal)]). *)
Inductive cls : Type := Dog | Animal | Cat.

(** The functions defined in the three class bodies. *)
Inductive func : Type :=
  | FDog_init | FDog_bark
  | FAnimal_init | FAnimal_speak
  | FCat_init | FCat_speak.

(** Object references are heap addresses. *)
Definition loc : Type := nat.

(** Python values the script can handle: the immediates, references to
    instances, class objects and bound methods. *)
Inductive value : Type :=
  | VNone
  | VBool (b : bool)
  | VInt (z : Z)
  | VStr (s : string)
  | VRef (l : loc)
  | VClass (c : cls)
  | VMethod (f : func) (self : value).

(** An instance: its class and its [__dict__]. *)
Record object : Type := mkObject {
  obj_class : cls;
  obj_dict : gmap string value
}.

(** The exceptions the operations of the script can raise. *)
Inductive exn : Type :=
  | NameError (name : string)
  | AttributeError (attr : string)
  | TypeError (msg : string)
  | SystemError (msg : string).

Record state : Type := mkState {
  globals : gmap string value;   (* the module namespace *)
  heap : gmap loc object;        (* the instances allocated so far *)
  stdout : string                (* the characters written to the console *)
}.

Definition initial : state :=
  {| globals := ∅; heap := ∅; stdout := "" |}.

(** ** The state-and-exception monad *)

Inductive result (A : Type) : Type :=
  | Ok (a : A) (s : state)
  | Raise (e : exn) (s : state).
Arguments Ok {A} a s.
Arguments Raise {A} e s.

Definition M (A : Type) : Type := state -> result A.

Definition ret {A} (a : A) : M A := fun s => Ok a s.

Definition raise {A} (e : exn) : M A := fun s => Raise e s.

Definition bind {A B} (m : M A) (k : A -> M B) : M B :=
  fun s => match m s with
           | Ok a s' => k a s'
           | Raise e s' => Raise e s'
           end.

Declare Scope py_scope.
Delimit Scope py_scope with py.
Notation "x <~ m ;; k" := (bind m (fun x => k))
  (at level 100, m at next level, right associativity) : py_scope.
Notation "m ;;; k" := (bind m (fun _ => k))
  (at level 100, right associativity) : py_scope.
Local Open Scope py_scope.

(** The final state of a run, whether it ended normally or not. *)
Definition final {A} (r : result A) : state :=
  match r with Ok _ s => s | Raise _ s => s end.

Definition succeeds {A} (r : result A) : Prop :=
  match r with Ok _ _ => True | Raise _ _ => False end.

(** ** Private-name mangling

    Inside a class body an identifier that starts with two underscores and
    does not end with two underscores is rewritten to [_Class__ident], with
    the leading underscores of the class name removed; a class name made of
    underscores only, or an identifier with a dot, switches the rewriting
    off.  At module level nothing is rewritten. *)

Definition cls_name (c : cls) : string :=
  match c with
  | Dog => "Dog"
  | Animal => "Animal"
  | Cat => "Cat"
  end.

Definition starts_dunder (s : string) : bool :=
  match s with
  | String "_" (String "_" _) => true
  | _ => false
  end.

Fixpoint ends_dunder (s : string) : bool :=
  match s with
  | EmptyString => false
  | String _ t => String.eqb s "__" || ends_dunder t
  end.

Fixpoint has_dot (s : string) : bool :=
  match s with
  | EmptyString => false
  | String a t => Ascii.eqb a "." || has_dot t
  end.

Fixpoint lstrip_underscores (s : string) : string :=
  match s with
  | String "_" t => lstrip_underscores t
  | _ => s
  end.

Definition mangle (ctx : option cls) (ident : string) : string :=
  match ctx with
  | None => ident
  | Some c =>
      if negb (starts_dunder ident) || ends_dunder ident || has_dot ident
      then ident
      else match lstrip_underscores (cls_name c) with
           | EmptyString => ident
           | stripped => "_" ++ stripped ++ ident
           end
  end.

(** ** Classes: method tables and method resolution order *)

(** The functions each [class] statement puts in the class namespace. *)
Definition class_dict (c : cls) : gmap string func :=
  match c with
  | Dog => {[ "__init__" := FDog_init; "bark" := FDog_bark ]}
  | Animal => {[ "__init__" := FAnimal_init; "speak" := FAnimal_speak ]}
  | Cat => {[ "__init__" := FCat_init; "speak" := FCat_speak ]}
  end.

(** Linearised bases, most specific first (the implicit root [object]
    defines none of the names the script uses and is left out). *)
Definition mro (c : cls) : list cls :=
  match c with
  | Dog => [Dog]
  | Animal => [Animal]
  | Cat => [Cat; Animal]
  end.

Fixpoint lookup_mro (cs : list cls) (attr : string) : option func :=
  match cs with
  | [] => None
  | c :: rest =>
      match class_dict c !! attr with
      | Some f => Some f
      | None => lookup_mro rest attr
      end
  end.

Definition cls_eqb (a b : cls) : bool :=
  match a, b with
  | Dog, Dog | Animal, Animal | Cat, Cat => true
  | _, _ => false
  end.

(** [issubclass(c, d)]. *)
Definition issubclass (c d : cls) : bool := existsb (cls_eqb d) (mro c).

(** The part of a resolution order that follows class [c]: where
    [super()] written in the body of [c] starts looking. *)
Fixpoint mro_after (c : cls) (cs : list cls) : list cls :=
  match cs with
  | [] => []
  | d :: rest => if cls_eqb c d then rest else mro_after c rest
  end.

(** ** Primitive operations *)

Definition newline : string := String "010" EmptyString.

Definition func_qualname (f : func) : string :=
  match f with
  | FDog_init => "Dog.__init__"
  | FDog_bark => "Dog.bark"
  | FAnimal_init => "Animal.__init__"
  | FAnimal_speak => "Animal.speak"
  | FCat_init => "Cat.__init__"
  | FCat_speak => "Cat.speak"
  end.

(** [str(v)].  None of the classes defines [__str__] or [__repr__], so an
    instance gets the default rendering; the address in it is chosen by the
    implementation, and the heap location stands for it. *)
Fixpoint py_str (h : gmap loc object) (v : value) : string :=
  match v with
  | VNone => "None"
  | VBool true => "True"
  | VBool false => "False"
  | VInt z => NilZero.string_of_int (Z.to_int z)
  | VStr s => s
  | VRef l =>
      "<__main__."
      ++ match h !! l with Some o => cls_name (obj_class o) | None => "?" end
      ++ " object at " ++ NilZero.string_of_uint (Nat.to_uint l) ++ ">"
  | VClass c => "<class '__main__." ++ cls_name c ++ "'>"
  | VMethod f self =>
      "<bound method " ++ func_qualname f ++ " of " ++ py_str h self ++ ">"
  end.

(** [print(v)]: the text of [v] and a line terminator go to the console. *)
Definition print (v : value) : M value :=
  fun s => Ok VNone {| globals := globals s; heap := heap s;
                       stdout := stdout s ++ py_str (heap s) v ++ newline |}.

Definition load_global (name : string) : M value :=
  fun s => match globals s !! name with
           | Some v => Ok v s
           | None => Raise (NameError name) s
           end.

Definition store_global (name : string) (v : value) : M unit :=
  fun s => Ok tt {| globals := <[name := v]> (globals s); heap := heap s;
                    stdout := stdout s |}.

(** A new, empty instance of [c] at an unused address. *)
Definition alloc (c : cls) : M value :=
  fun s => let l := fresh (dom (heap s)) in
           Ok (VRef l) {| globals := globals s;
                          heap := <[l := mkObject c ∅]> (heap s);
                          stdout := stdout s |}.

(** [v.attr] read from code placed in [ctx] (a class body, or the module
    level when [ctx] is [None]): the instance dictionary first, then the
    classes of the resolution order, whose functions come back bound. *)
Definition get_attr (ctx : option cls) (v : value) (attr : string) : M value :=
  fun s =>
    let a := mangle ctx attr in
    match v with
    | VRef l =>
        match heap s !! l with
        | Some o =>
            match obj_dict o !! a with
            | Some x => Ok x s
            | None =>
                match lookup_mro (mro (obj_class o)) a with
                | Some f => Ok (VMethod f v) s
                | None => Raise (AttributeError a) s
                end
            end
        | None => Raise (SystemError "dangling reference") s
        end
    | _ => Raise (AttributeError a) s
    end.

(** [v.attr = x] written in [ctx]. *)
Definition set_attr (ctx : option cls) (v : value) (attr : string) (x : value)
  : M unit :=
  fun s =>
    let a := mangle ctx attr in
    match v with
    | VRef l =>
        match heap s !! l with
        | Some o =>
            Ok tt {| globals := globals s;
                     heap := <[l := mkObject (obj_class o) (<[a := x]> (obj_dict o))]> (heap s);
                     stdout := stdout s |}
        | None => Raise (SystemError "dangling reference") s
        end
    | _ => Raise (AttributeError a) s
    end.

(** [super().attr] written in the body of class [c], for the instance
    [self]. *)
Definition super_get_attr (c : cls) (self : value) (attr : string) : M value :=
  fun s =>
    let a := mangle (Some c) attr in
    match self with
    | VRef l =>
        match heap s !! l with
        | Some o =>
            match lookup_mro (mro_after c (mro (obj_class o))) a with
            | Some f => Ok (VMethod f self) s
            | None => Raise (AttributeError a) s
            end
        | None => Raise (SystemError "dangling reference") s
        end
    | _ => Raise (TypeError "super(type, obj): obj must be an instance") s
    end.

(** ** The class bodies of the script *)

(** [def __init__(self, name, breed)] of [class Dog]. *)
Definition Dog__init__ (self name breed : value) : M value :=
  set_attr (Some Dog) self "name" name ;;;
  set_attr (Some Dog) self "breed" breed ;;;
  ret VNone.

(** [def bark(self)] of [class Dog]. *)
Definition Dog_bark (self : value) : M value :=
  print (VStr "Woof!") ;;;
  ret VNone.

(** [def __init__(self, name)] of [class Animal]. *)
Definition Animal__init__ (self name : value) : M value :=
  set_attr (Some Animal) self "__name" name ;;;
  ret VNone.

(** [def speak(self)] of [class Animal]. *)
Definition Animal_speak (self : value) : M value :=
  print (VStr "Generic animal sound") ;;;
  ret VNone.

Definition arity_error {A} (f : func) : M A :=
  raise (TypeError (func_qualname f ++ "(): wrong number of arguments")).

(** Calling one of the functions that exist when [class Cat] is being
    defined: those of [Dog] and [Animal]. *)
Definition apply_base (f : func) (args : list value) : M value :=
  match f, args with
  | FDog_init, [self; name; breed] => Dog__init__ self name breed
  | FDog_bark, [self] => Dog_bark self
  | FAnimal_init, [self; name] => Animal__init__ self name
  | FAnimal_speak, [self] => Animal_speak self
  | (FCat_init | FCat_speak), _ => raise (NameError "Cat")
  | _, _ => arity_error f
  end.

(** [def __init__(self, name)] of [class Cat]: [super().__init__(name)]. *)
Definition Cat__init__ (self name : value) : M value :=
  m <~ super_get_attr Cat self "__init__" ;;
  match m with
  | VMethod f this => apply_base f [this; name]
  | _ => raise (TypeError "object is not callable")
  end ;;;
  ret VNone.

(** [def speak(self)] of [class Cat]. *)
Definition Cat_speak (self : value) : M value :=
  print (VStr "Meow!") ;;;
  ret VNone.

Definition apply_func (f : func) (args : list value) : M value :=
  match f, args with
  | FCat_init, [self; name] => Cat__init__ self name
  | FCat_speak, [self] => Cat_speak self
  | (FCat_init | FCat_speak), _ => arity_error f
  | _, _ => apply_base f args
  end.

(** [c(args)] for a class [c]: allocate, run the [__init__] the resolution
    order gives, and hand back the instance. *)
Definition instantiate (c : cls) (args : list value) : M value :=
  self <~ alloc c ;;
  match lookup_mro (mro c) "__init__" with
  | Some f => apply_func f (self :: args)
  | None =>
      match args with
      | [] => ret VNone
      | _ => raise (TypeError (cls_name c ++ "() takes no arguments"))
      end
  end ;;;
  ret self.

(** [callee(args)]. *)
Definition call (callee : value) (args : list value) : M value :=
  match callee with
  | VClass c => instantiate c args
  | VMethod f self => apply_func f (self :: args)
  | _ => raise (TypeError "object is not callable")
  end.

(** [v.attr(args)] written in [ctx]. *)
Definition call_method (ctx : option cls) (v : value) (attr : string)
    (args : list value) : M value :=
  m <~ get_attr ctx v attr ;;
  call m args.

(** [isinstance(v, c)]. *)
Definition isinstance (s : state) (v : value) (c : cls) : bool :=
  match v with
  | VRef l =>
      match heap s !! l with
      | Some o => issubclass (obj_class o) c
      | None => false
      end
  | _ => false
  end.

(** ** The statements of the module, top to bottom *)

(** [class Dog: ...] *)
Definition def_Dog : M unit := store_global "Dog" (VClass Dog).

(** [my_dog = Dog("Fido", "Labrador")] *)
Definition new_my_dog : M unit :=
  f <~ load_global "Dog" ;;
  d <~ call f [VStr "Fido"; VStr "Labrador"] ;;
  store_global "my_dog" d.

(** [print(my_dog.name)] *)
Definition print_my_dog_name : M unit :=
  d <~ load_global "my_dog" ;;
  n <~ get_attr None d "name" ;;
  print n ;;;
  ret tt.

(** [my_dog.bark()] *)
Definition call_my_dog_bark : M unit :=
  d <~ load_global "my_dog" ;;
  call_method None d "bark" [] ;;;
  ret tt.

(** [class Animal: ...] *)
Definition def_Animal : M unit := store_global "Animal" (VClass Animal).

(** [class Cat(Animal): ...]: the base expression is evaluated first. *)
Definition def_Cat : M unit :=
  base <~ load_global "Animal" ;;
  match base with
  | VClass Animal => store_global "Cat" (VClass Cat)
  | _ => raise (TypeError "Cat: unexpected base")
  end.

(** [my_cat = Cat("Whiskers")] *)
Definition new_my_cat : M unit :=
  f <~ load_global "Cat" ;;
  c <~ call f [VStr "Whiskers"] ;;
  store_global "my_cat" c.

(** [my_cat.speak()] *)
Definition call_my_cat_speak : M unit :=
  c <~ load_global "my_cat" ;;
  call_method None c "speak" [] ;;;
  ret tt.

Fixpoint exec (stmts : list (M unit)) : M unit :=
  match stmts with
  | [] => ret tt
  | st :: rest => st ;;; exec rest
  end.

(** The module body, in source order. *)
Definition toplevel : list (M unit) :=
  [ def_Dog; new_my_dog; print_my_dog_name; call_my_dog_bark;
    def_Animal; def_Cat; new_my_cat; call_my_cat_speak ].

Definition main : M unit := exec toplevel.

(** ** Vocabulary of the statements below *)

(** The state [s] after one more line [text] has reached the console and
    nothing else has changed. *)
Definition with_line (s : state) (text : string) : state :=
  {| globals := globals s; heap := heap s;
     stdout := stdout s ++ text ++ newline |}.

(** The state [s] with the instance [o] placed at address [l]. *)
Definition with_object (s : state) (l : loc) (o : object) : state :=
  {| globals := globals s; heap := <[l := o]> (heap s); stdout := stdout s |}.

(** The attribute dictionary of the instance at [l], if there is one. *)
Definition dict_of (s : state) (l : loc) : option (gmap string value) :=
  obj_dict <$> heap s !! l.

(** The names reachable on instances of [c] through its classes. *)
Definition interface (c : cls) : gset string :=
  ⋃ (map (fun d => dom (class_dict d)) (mro c)).

(** The console contents after each statement of a run, oldest first;
    the run stops at the first statement that raises. *)
Fixpoint console_trace (stmts : list (M unit)) (s : state) : list string :=
  match stmts with
  | [] => []
  | st :: rest =>
      match st s with
      | Ok _ s' => stdout s' :: console_trace rest s'
      | Raise _ s' => [stdout s']
      end
  end.

(** Follows the spec's words, not the source: the seven steps the
    overview lists as the whole top-level execution. *)
Definition spec_toplevel : list (M unit) :=
  [ def_Dog; new_my_dog; call_my_dog_bark;
    def_Animal; def_Cat; new_my_cat; call_my_cat_speak ].

(** The attribute dictionaries the constructors build. *)
Definition dog_dict (name breed : value) : gmap string value :=
  <["breed" := breed]> (<["name" := name]> ∅).

Definition animal_dict (name : value) : gmap string value :=
  <["_Animal__name" := name]> ∅.

(** The state of the script once [my_dog] is bound. *)
Definition after_my_dog : state := final (exec [def_Dog; new_my_dog] initial).

(** The outcome of reading the three spellings on an instance at [l]. *)
Definition name_is_mangled (s : state) (l : loc) (name : value) : Prop :=
  dict_of s l = Some (animal_dict name)
  /\ get_attr None (VRef l) "name" s = Raise (AttributeError "name") s
  /\ get_attr None (VRef l) "__name" s = Raise (AttributeError "__name") s
  /\ get_attr (Some Dog) (VRef l) "__name" s
     = Raise (AttributeError "_Dog__name") s
  /\ get_attr (Some Cat) (VRef l) "__name" s
     = Raise (AttributeError "_Cat__name") s
  /\ get_attr None (VRef l) "_Animal__name" s = Ok name s
  /\ get_attr (Some Animal) (VRef l) "__name" s = Ok name s.

(** The heap after the first [n] statements of the module. *)
Definition heap_after (n : nat) : gmap loc object :=
  heap (final (exec (firstn n toplevel) initial)).

Definition fido : object :=
  mkObject Dog (dog_dict (VStr "Fido") (VStr "Labrador")).

Definition whiskers : object :=
  mkObject Cat (animal_dict (VStr "Whiskers")).

(** The console contents made of the given lines, each terminated. *)
Fixpoint lines (ls : list string) : string :=
  match ls with
  | [] => ""
  | l :: rest => l ++ newline ++ lines rest
  end.


(** The number of parameters in the [def] of each function, [self]
    included. *)
Definition arity (f : func) : nat :=
  match f with
  | FDog_init => 3
  | FDog_bark => 1
  | FAnimal_init => 2
  | FAnimal_speak => 1
  | FCat_init => 2
  | FCat_speak => 1
  end.

(** The number of arguments the call [c(...)] takes: the parameters of the
    [__init__] the class resolves to, without [self]. *)
Definition ctor_arity (c : cls) : nat :=
  match lookup_mro (mro c) "__init__" with
  | Some f => arity f - 1
  | None => 0
  end.



(** ** Basic facts about the primitives *)

Section Primitives.

Variable s : state.

Lemma mangle_module (a : string) : mangle None a = a.
Proof. reflexivity. Qed.

Lemma mangle_plain (ctx : option cls) (a : string) :
  starts_dunder a = false -> mangle ctx a = a.
Proof.
  intros Ha. destruct ctx as [c|]; [|reflexivity].
  unfold mangle. rewrite Ha. reflexivity.
Qed.

Lemma alloc_fresh :
  heap s !! fresh (dom (heap s)) = None.
Proof. apply not_elem_of_dom, is_fresh. Qed.

Lemma alloc_eq (c : cls) :
  alloc c s = Ok (VRef (fresh (dom (heap s))))
                 (with_object s (fresh (dom (heap s))) (mkObject c ∅)).
Proof. reflexivity. Qed.

Lemma set_attr_ref ctx l o a x :
  heap s !! l = Some o ->
  set_attr ctx (VRef l) a x s
  = Ok tt (with_object s l
             (mkObject (obj_class o) (<[mangle ctx a := x]> (obj_dict o)))).
Proof. intros H. unfold set_attr. rewrite H. reflexivity. Qed.

Lemma get_attr_field ctx l o a x :
  heap s !! l = Some o ->
  obj_dict o !! mangle ctx a = Some x ->
  get_attr ctx (VRef l) a s = Ok x s.
Proof. intros H Hx. unfold get_attr. rewrite H, Hx. reflexivity. Qed.

Lemma get_attr_method ctx l o a f :
  heap s !! l = Some o ->
  obj_dict o !! mangle ctx a = None ->
  lookup_mro (mro (obj_class o)) (mangle ctx a) = Some f ->
  get_attr ctx (VRef l) a s = Ok (VMethod f (VRef l)) s.
Proof. intros H Hx Hf. unfold get_attr. rewrite H, Hx, Hf. reflexivity. Qed.

Lemma get_attr_missing ctx l o a :
  heap s !! l = Some o ->
  obj_dict o !! mangle ctx a = None ->
  lookup_mro (mro (obj_class o)) (mangle ctx a) = None ->
  get_attr ctx (VRef l) a s = Raise (AttributeError (mangle ctx a)) s.
Proof. intros H Hx Hf. unfold get_attr. rewrite H, Hx, Hf. reflexivity. Qed.

Lemma print_eq (text : string) :
  print (VStr text) s = Ok VNone (with_line s text).
Proof. reflexivity. Qed.

End Primitives.

Lemma with_object_lookup s l o : heap (with_object s l o) !! l = Some o.
Proof. apply lookup_insert_eq. Qed.

Lemma with_object_twice s l o o' :
  with_object (with_object s l o) l o' = with_object s l o'.
Proof. unfold with_object; simpl. by rewrite insert_insert_eq. Qed.

(** ** The constructors *)

Section Initialisers.

Context (s : state) (l0 : loc) (o : object).
Hypothesis Hobj : heap s !! l0 = Some o.

Lemma Dog__init__eq (name breed : value) :
  Dog__init__ (VRef l0) name breed s
  = Ok VNone (with_object s l0
                (mkObject (obj_class o)
                   (<["breed" := breed]> (<["name" := name]> (obj_dict o))))).
Proof.
  unfold Dog__init__, bind.
  rewrite (set_attr_ref s (Some Dog) l0 o "name" name Hobj).
  rewrite (set_attr_ref _ (Some Dog) l0 _ "breed" breed (with_object_lookup _ _ _)).
  rewrite with_object_twice. reflexivity.
Qed.

Lemma Animal__init__eq (name : value) :
  Animal__init__ (VRef l0) name s
  = Ok VNone (with_object s l0
                (mkObject (obj_class o)
                   (<["_Animal__name" := name]> (obj_dict o)))).
Proof.
  unfold Animal__init__, bind.
  rewrite (set_attr_ref s (Some Animal) l0 o "__name" name Hobj).
  reflexivity.
Qed.

Lemma super_Cat_init :
  obj_class o = Cat ->
  super_get_attr Cat (VRef l0) "__init__" s
  = Ok (VMethod FAnimal_init (VRef l0)) s.
Proof.
  intros Hc. unfold super_get_attr. rewrite Hobj, Hc. reflexivity.
Qed.

Lemma Cat__init__eq (name : value) :
  obj_class o = Cat ->
  Cat__init__ (VRef l0) name s = Animal__init__ (VRef l0) name s.
Proof.
  intros Hc. unfold Cat__init__, bind at 1.
  rewrite (super_Cat_init Hc). unfold bind. simpl apply_base.
  rewrite (Animal__init__eq name). reflexivity.
Qed.

End Initialisers.

Section Constructors.

Variable s : state.

Let l : loc := fresh (dom (heap s)).

Lemma instantiate_Dog (name breed : value) :
  instantiate Dog [name; breed] s
  = Ok (VRef l) (with_object s l (mkObject Dog (dog_dict name breed))).
Proof.
  unfold instantiate, bind. rewrite alloc_eq. fold l.
  change (lookup_mro (mro Dog) "__init__") with (Some FDog_init).
  cbv beta iota.
  change (apply_func FDog_init [VRef l; name; breed])
    with (Dog__init__ (VRef l) name breed).
  rewrite (Dog__init__eq _ l _ (with_object_lookup _ _ _)).
  rewrite with_object_twice. reflexivity.
Qed.

Lemma instantiate_Animal (name : value) :
  instantiate Animal [name] s
  = Ok (VRef l) (with_object s l (mkObject Animal (animal_dict name))).
Proof.
  unfold instantiate, bind. rewrite alloc_eq. fold l.
  change (lookup_mro (mro Animal) "__init__") with (Some FAnimal_init).
  cbv beta iota.
  change (apply_func FAnimal_init [VRef l; name])
    with (Animal__init__ (VRef l) name).
  rewrite (Animal__init__eq _ l _ (with_object_lookup _ _ _)).
  rewrite with_object_twice. reflexivity.
Qed.

Lemma instantiate_Cat (name : value) :
  instantiate Cat [name] s
  = Ok (VRef l) (with_object s l (mkObject Cat (animal_dict name))).
Proof.
  unfold instantiate, bind. rewrite alloc_eq. fold l.
  change (lookup_mro (mro Cat) "__init__") with (Some FCat_init).
  cbv beta iota.
  change (apply_func FCat_init [VRef l; name])
    with (Cat__init__ (VRef l) name).
  rewrite (Cat__init__eq _ l (mkObject Cat ∅) (with_object_lookup _ _ _) name eq_refl).
  rewrite (Animal__init__eq _ l _ (with_object_lookup _ _ _)).
  rewrite with_object_twice. reflexivity.
Qed.

End Constructors.

(** ** Reading attributes and calling methods on an instance *)

Lemma dog_dict_name name breed : dog_dict name breed !! "name" = Some name.
Proof. unfold dog_dict. by simplify_map_eq. Qed.

Lemma dog_dict_breed name breed : dog_dict name breed !! "breed" = Some breed.
Proof. unfold dog_dict. by simplify_map_eq. Qed.

Lemma dog_dict_other name breed (a : string) :
  a <> "name" -> a <> "breed" -> dog_dict name breed !! a = None.
Proof. intros Hn Hb. unfold dog_dict. by simplify_map_eq. Qed.

Lemma animal_dict_name name : animal_dict name !! "_Animal__name" = Some name.
Proof. unfold animal_dict. by simplify_map_eq. Qed.

Lemma animal_dict_other name (a : string) :
  a <> "_Animal__name" -> animal_dict name !! a = None.
Proof. intros Hn. unfold animal_dict. by simplify_map_eq. Qed.

Section Methods.

Context (s : state) (l : loc) (o : object).
Hypothesis Hobj : heap s !! l = Some o.

(** A method found on the class, and not shadowed by the instance
    dictionary, is called with the instance as [self]. *)
Lemma call_method_found (attr : string) (f : func) (args : list value) :
  obj_dict o !! attr = None ->
  lookup_mro (mro (obj_class o)) attr = Some f ->
  call_method None (VRef l) attr args s = apply_func f (VRef l :: args) s.
Proof.
  intros Hd Hf. unfold call_method, bind.
  rewrite (get_attr_method s None l o attr f Hobj Hd Hf). reflexivity.
Qed.

Lemma bark_on_Dog :
  obj_class o = Dog -> obj_dict o !! "bark" = None ->
  call_method None (VRef l) "bark" [] s = Ok VNone (with_line s "Woof!").
Proof.
  intros Hc Hd. rewrite (call_method_found "bark" FDog_bark); auto.
  rewrite Hc. reflexivity.
Qed.

Lemma speak_on_Animal :
  obj_class o = Animal -> obj_dict o !! "speak" = None ->
  call_method None (VRef l) "speak" [] s
  = Ok VNone (with_line s "Generic animal sound").
Proof.
  intros Hc Hd. rewrite (call_method_found "speak" FAnimal_speak); auto.
  rewrite Hc. reflexivity.
Qed.

Lemma speak_on_Cat :
  obj_class o = Cat -> obj_dict o !! "speak" = None ->
  call_method None (VRef l) "speak" [] s = Ok VNone (with_line s "Meow!").
Proof.
  intros Hc Hd. rewrite (call_method_found "speak" FCat_speak); auto.
  rewrite Hc. reflexivity.
Qed.

End Methods.

(** The three printing methods ignore [self] altogether. *)
Lemma Dog_bark_eq self s : Dog_bark self s = Ok VNone (with_line s "Woof!").
Proof. reflexivity. Qed.

Lemma Animal_speak_eq self s :
  Animal_speak self s = Ok VNone (with_line s "Generic animal sound").
Proof. reflexivity. Qed.

Lemma Cat_speak_eq self s : Cat_speak self s = Ok VNone (with_line s "Meow!").
Proof. reflexivity. Qed.

(** ** The claims *)

(** C2.  Constructing a [Dog] from any two values [name] and [breed]
    succeeds and yields an instance whose dictionary holds exactly these two
    values, unchanged, under [name] and [breed]; reading either attribute
    gives the argument back.  In the script, [my_dog] has name ["Fido"] and
    breed ["Labrador"]. *)
Theorem Dog_init_stores_name_and_breed :
  (forall (s : state) (name breed : value),
      exists (l : loc) (s' : state),
        call (VClass Dog) [name; breed] s = Ok (VRef l) s'
        /\ heap s' !! l = Some (mkObject Dog (dog_dict name breed))
        /\ get_attr None (VRef l) "name" s' = Ok name s'
        /\ get_attr None (VRef l) "breed" s' = Ok breed s')
  /\ (exists (l : loc),
        exec [def_Dog; new_my_dog] initial = Ok tt after_my_dog
        /\ globals after_my_dog !! "my_dog" = Some (VRef l)
        /\ get_attr None (VRef l) "name" after_my_dog
           = Ok (VStr "Fido") after_my_dog
        /\ get_attr None (VRef l) "breed" after_my_dog
           = Ok (VStr "Labrador") after_my_dog).
Proof.
  split.
  - intros s name breed.
    exists (fresh (dom (heap s))); eexists.
    split; [apply instantiate_Dog|].
    pose proof (with_object_lookup s (fresh (dom (heap s)))
                  (mkObject Dog (dog_dict name breed))) as Hl.
    split; [exact Hl|].
    split.
    + eapply get_attr_field; [exact Hl|]. apply dog_dict_name.
    + eapply get_attr_field; [exact Hl|]. apply dog_dict_breed.
  - exists 0. vm_compute. repeat split.
Qed.

(** C3.  Whatever name and breed a [Dog] was built from, [bark()] on it
    returns [None] and appends the single line [Woof!] to the console,
    nothing more; the body of [bark] does not look at [self] at all. *)
Theorem Dog_bark_writes_Woof :
  (forall (s : state) (name breed : value),
      exists (l : loc) (s' : state),
        call (VClass Dog) [name; breed] s = Ok (VRef l) s'
        /\ call_method None (VRef l) "bark" [] s'
           = Ok VNone (with_line s' "Woof!"))
  /\ (forall (s : state) (self : value),
        Dog_bark self s = Ok VNone (with_line s "Woof!"))
  /\ (forall (s : state),
        stdout (with_line s "Woof!") = stdout s ++ "Woof!" ++ newline).
Proof.
  split; [|split; [intros; apply Dog_bark_eq | reflexivity]].
  intros s name breed.
  exists (fresh (dom (heap s))); eexists.
  split; [apply instantiate_Dog|].
  eapply bark_on_Dog; [apply with_object_lookup | reflexivity |].
  simpl. by apply dog_dict_other.
Qed.

Lemma interface_Animal_in_Cat : interface Animal ⊆ interface Cat.
Proof. unfold interface. simpl. set_solver. Qed.

Lemma lines_differ (s : state) (a b : string) :
  a <> b -> stdout (with_line s a) <> stdout (with_line s b).
Proof.
  intros Hab H. apply Hab. simpl in H.
  apply (inj (String.app (stdout s))) in H.
  revert b Hab H. induction a as [|x a IH]; intros [|y b] Hab H;
    simpl in H; try congruence.
  - destruct b; discriminate.
  - destruct a; discriminate.
  - injection H as -> H. f_equal. apply IH; congruence.
Qed.

(** C4.  [Cat("Whiskers")] succeeds and yields an instance of [Animal]
    (every name reachable on an [Animal] is reachable on it, [speak] among
    them) whose [speak()] appends the line [Meow!] to the console, which is
    not the line [Generic animal sound]. *)
Theorem Cat_is_an_Animal_that_says_Meow :
  forall (s : state),
    exists (l : loc) (s' : state),
      call (VClass Cat) [VStr "Whiskers"] s = Ok (VRef l) s'
      /\ isinstance s' (VRef l) Animal = true
      /\ isinstance s' (VRef l) Cat = true
      /\ interface Animal ⊆ interface Cat
      /\ "speak" ∈ interface Animal
      /\ call_method None (VRef l) "speak" [] s'
         = Ok VNone (with_line s' "Meow!")
      /\ stdout (with_line s' "Meow!")
         <> stdout (with_line s' "Generic animal sound").
Proof.
  intros s. exists (fresh (dom (heap s))); eexists.
  split; [apply instantiate_Cat|].
  split; [unfold isinstance; rewrite with_object_lookup; reflexivity|].
  split; [unfold isinstance; rewrite with_object_lookup; reflexivity|].
  split; [apply interface_Animal_in_Cat|].
  split; [unfold interface; simpl; set_solver|].
  split.
  - eapply speak_on_Cat; [apply with_object_lookup | reflexivity |].
    simpl. by apply animal_dict_other.
  - apply lines_differ. discriminate.
Qed.

(** C5.  The one call [x.speak()], written without reference to the class
    of [x], succeeds on a plain [Animal] and on a [Cat] built from any
    name, and what it prints is fixed by the class alone: the line
    [Generic animal sound] for an [Animal], the line [Meow!] for a [Cat]. *)
Theorem speak_is_polymorphic :
  forall (s : state) (name : value),
    (exists (l : loc) (s' : state),
        call (VClass Animal) [name] s = Ok (VRef l) s'
        /\ call_method None (VRef l) "speak" [] s'
           = Ok VNone (with_line s' "Generic animal sound"))
    /\ (exists (l : loc) (s' : state),
          call (VClass Cat) [name] s = Ok (VRef l) s'
          /\ call_method None (VRef l) "speak" [] s'
             = Ok VNone (with_line s' "Meow!")).
Proof.
  intros s name. split.
  - exists (fresh (dom (heap s))); eexists.
    split; [apply instantiate_Animal|].
    eapply speak_on_Animal; [apply with_object_lookup | reflexivity |].
    simpl. by apply animal_dict_other.
  - exists (fresh (dom (heap s))); eexists.
    split; [apply instantiate_Cat|].
    eapply speak_on_Cat; [apply with_object_lookup | reflexivity |].
    simpl. by apply animal_dict_other.
Qed.

(** C6.  From the same state and the same argument, [Cat(name)] and
    [Animal(name)] build instances with the same attribute dictionary, the
    single entry written by [Animal.__init__]; on the new [Cat] instance
    [Cat.__init__] does exactly what [Animal.__init__] does. *)
Theorem Cat_init_delegates_to_Animal_init :
  forall (s : state) (name : value),
    exists (l : loc) (sc sa s0 : state),
      call (VClass Cat) [name] s = Ok (VRef l) sc
      /\ call (VClass Animal) [name] s = Ok (VRef l) sa
      /\ dict_of sc l = dict_of sa l
      /\ dict_of sc l = Some (animal_dict name)
      /\ alloc Cat s = Ok (VRef l) s0
      /\ Cat__init__ (VRef l) name s0 = Animal__init__ (VRef l) name s0.
Proof.
  intros s name.
  exists (fresh (dom (heap s))); do 3 eexists.
  split; [apply instantiate_Cat|].
  split; [apply instantiate_Animal|].
  unfold dict_of. rewrite !with_object_lookup.
  split; [reflexivity|]. split; [reflexivity|].
  split; [apply alloc_eq|].
  eapply Cat__init__eq; [apply with_object_lookup | reflexivity].
Qed.

Lemma mangle_Animal_name_from (ctx : option cls) :
  mangle ctx "_Animal__name" = "_Animal__name".
Proof. by apply mangle_plain. Qed.

(** What reading the attributes of a freshly built [Animal] or [Cat]
    gives, from the module level and from each class body. *)
Section PrivateName.

Context (s : state) (l : loc) (c : cls) (name : value).
Hypothesis Hobj : heap s !! l = Some (mkObject c (animal_dict name)).

Lemma read_mangled (ctx : option cls) :
  get_attr ctx (VRef l) "_Animal__name" s = Ok name s.
Proof.
  eapply get_attr_field; [exact Hobj|].
  rewrite mangle_Animal_name_from. apply animal_dict_name.
Qed.

Lemma read_inside_Animal :
  get_attr (Some Animal) (VRef l) "__name" s = Ok name s.
Proof.
  eapply get_attr_field; [exact Hobj|]. apply animal_dict_name.
Qed.

Lemma read_missing (ctx : option cls) (attr : string) :
  mangle ctx attr <> "_Animal__name" ->
  lookup_mro (mro c) (mangle ctx attr) = None ->
  get_attr ctx (VRef l) attr s = Raise (AttributeError (mangle ctx attr)) s.
Proof.
  intros Hne Hm. eapply get_attr_missing; [exact Hobj | |exact Hm].
  simpl. by apply animal_dict_other.
Qed.

End PrivateName.

(** C9.  The value given to [Animal.__init__] is not sealed off: on a
    newly built [Animal], and likewise on a newly built [Cat], code at the
    module level or in the body of any class reads it back through the
    attribute [_Animal__name]. *)
Theorem Animal_name_reachable_from_outside :
  forall (s : state) (name : value),
    (exists (l : loc) (s' : state),
        call (VClass Animal) [name] s = Ok (VRef l) s'
        /\ forall ctx : option cls,
             get_attr ctx (VRef l) "_Animal__name" s' = Ok name s')
    /\ (exists (l : loc) (s' : state),
          call (VClass Cat) [name] s = Ok (VRef l) s'
          /\ forall ctx : option cls,
               get_attr ctx (VRef l) "_Animal__name" s' = Ok name s').
Proof.
  intros s name. split.
  - exists (fresh (dom (heap s))); eexists.
    split; [apply instantiate_Animal|].
    intros ctx. eapply read_mangled. apply with_object_lookup.
  - exists (fresh (dom (heap s))); eexists.
    split; [apply instantiate_Cat|].
    intros ctx. eapply read_mangled. apply with_object_lookup.
Qed.

Lemma name_is_mangled_intro s l c name :
  c = Animal \/ c = Cat ->
  heap s !! l = Some (mkObject c (animal_dict name)) ->
  name_is_mangled s l name.
Proof.
  intros Hc Hobj. unfold name_is_mangled, dict_of. rewrite Hobj.
  split; [reflexivity|].
  split; [|split; [|split; [|split; [|split]]]].
  - apply (read_missing s l c name Hobj None "name"); [discriminate|].
    destruct Hc as [-> | ->]; reflexivity.
  - apply (read_missing s l c name Hobj None "__name"); [discriminate|].
    destruct Hc as [-> | ->]; reflexivity.
  - apply (read_missing s l c name Hobj (Some Dog) "__name"); [discriminate|].
    destruct Hc as [-> | ->]; reflexivity.
  - apply (read_missing s l c name Hobj (Some Cat) "__name"); [discriminate|].
    destruct Hc as [-> | ->]; reflexivity.
  - apply (read_mangled s l c name Hobj).
  - apply (read_inside_Animal s l c name Hobj).
Qed.

(** C10.  [self.__name = name] in the body of [Animal] stores the value
    under [_Animal__name] and under no other key.  On a newly built
    [Animal] or [Cat], reading [name], or reading [__name] from the module
    level or from the body of [Dog] or [Cat], raises [AttributeError];
    reading [_Animal__name] returns the constructor argument, as does
    [__name] read inside [Animal]. *)
Theorem Animal_name_is_stored_mangled :
  forall (s : state) (name : value),
    (exists (l : loc) (s' : state),
        call (VClass Animal) [name] s = Ok (VRef l) s'
        /\ name_is_mangled s' l name)
    /\ (exists (l : loc) (s' : state),
          call (VClass Cat) [name] s = Ok (VRef l) s'
          /\ name_is_mangled s' l name).
Proof.
  intros s name. split.
  - exists (fresh (dom (heap s))); eexists.
    split; [apply instantiate_Animal|].
    eapply (name_is_mangled_intro _ _ Animal); [by left|].
    apply with_object_lookup.
  - exists (fresh (dom (heap s))); eexists.
    split; [apply instantiate_Cat|].
    eapply (name_is_mangled_intro _ _ Cat); [by right|].
    apply with_object_lookup.
Qed.

(** ** Running the whole module *)

Lemma firstn_toplevel_all (n : nat) :
  8 <= n -> firstn n toplevel = toplevel.
Proof. intros Hn. apply firstn_all2. exact Hn. Qed.

(** A property of every prefix of the module body follows from the nine
    cases: no statement run, one, ..., all eight. *)
Lemma prefix_cases (P : list (M unit) -> Prop) :
  Forall P (map (fun n => firstn n toplevel) (seq 0 9)) ->
  forall n, P (firstn n toplevel).
Proof.
  intros HP n. destruct (Nat.le_gt_cases 8 n) as [Hn | Hn].
  - rewrite firstn_toplevel_all by exact Hn.
    rewrite Forall_forall in HP. apply HP.
    apply list_elem_of_In, in_map_iff. exists 8. split; [reflexivity|].
    apply in_seq. lia.
  - rewrite Forall_forall in HP. apply HP.
    apply list_elem_of_In, in_map_iff. exists n. split; [reflexivity|].
    apply in_seq. lia.
Qed.

(** C7.  The script runs to its end without raising, and so does every
    prefix of it: both constructions, the read of [my_dog.name] and both
    method calls succeed.  Beyond the script, constructing a [Dog] from any
    two values and an [Animal] or a [Cat] from any one value succeeds, and
    [bark] and [speak] succeed whatever they are applied to. *)
Theorem no_operation_raises :
  succeeds (main initial)
  /\ (forall n : nat, succeeds (exec (firstn n toplevel) initial))
  /\ (exists d : value,
        load_global "my_dog" after_my_dog = Ok d after_my_dog
        /\ get_attr None d "name" after_my_dog = Ok (VStr "Fido") after_my_dog)
  /\ (forall (s : state) (name breed : value),
        succeeds (call (VClass Dog) [name; breed] s))
  /\ (forall (s : state) (name : value),
        succeeds (call (VClass Animal) [name] s))
  /\ (forall (s : state) (name : value),
        succeeds (call (VClass Cat) [name] s))
  /\ (forall (s : state) (self : value),
        succeeds (Dog_bark self s)
        /\ succeeds (Animal_speak self s)
        /\ succeeds (Cat_speak self s)).
Proof.
  split; [vm_compute; exact I|].
  split.
  { apply (prefix_cases (fun p => succeeds (exec p initial))).
    repeat constructor; vm_compute; exact I. }
  split; [exists (VRef 0); vm_compute; split; reflexivity|].
  split; [intros; simpl; rewrite instantiate_Dog; exact I|].
  split; [intros; simpl; rewrite instantiate_Animal; exact I|].
  split; [intros; simpl; rewrite instantiate_Cat; exact I|].
  intros s self. repeat split.
Qed.

Lemma heap_after_cases (n : nat) :
  heap_after n = ∅
  \/ heap_after n = <[0 := fido]> ∅
  \/ heap_after n = <[1 := whiskers]> (<[0 := fido]> ∅).
Proof.
  unfold heap_after.
  apply (prefix_cases (fun p =>
    heap (final (exec p initial)) = ∅
    \/ heap (final (exec p initial)) = <[0 := fido]> ∅
    \/ heap (final (exec p initial)) = <[1 := whiskers]> (<[0 := fido]> ∅))).
  repeat constructor;
    first [ left; vm_compute; reflexivity
          | right; left; vm_compute; reflexivity
          | right; right; vm_compute; reflexivity ].
Qed.

Lemma heap_final : heap (final (main initial)) = <[1 := whiskers]> (<[0 := fido]> ∅).
Proof. vm_compute. reflexivity. Qed.

(** C8.  [bark] and [speak] leave the heap, hence every attribute of every
    instance, as they found it: after [bark()] a [Dog] still has the
    dictionary its constructor built, and so has an [Animal] or a [Cat]
    after [speak()].  In the script, an instance that exists after some
    statement is still there, with the same class and attributes, when the
    script ends. *)
Theorem instances_are_never_mutated :
  (forall (s : state) (self : value),
      heap (final (Dog_bark self s)) = heap s
      /\ heap (final (Animal_speak self s)) = heap s
      /\ heap (final (Cat_speak self s)) = heap s)
  /\ (forall (s : state) (name breed : value),
        exists (l : loc) (s' : state),
          call (VClass Dog) [name; breed] s = Ok (VRef l) s'
          /\ dict_of (final (call_method None (VRef l) "bark" [] s')) l
             = Some (dog_dict name breed))
  /\ (forall (s : state) (name : value),
        exists (l : loc) (s' : state),
          call (VClass Animal) [name] s = Ok (VRef l) s'
          /\ dict_of (final (call_method None (VRef l) "speak" [] s')) l
             = Some (animal_dict name))
  /\ (forall (s : state) (name : value),
        exists (l : loc) (s' : state),
          call (VClass Cat) [name] s = Ok (VRef l) s'
          /\ dict_of (final (call_method None (VRef l) "speak" [] s')) l
             = Some (animal_dict name))
  /\ (forall n : nat, heap_after n ⊆ heap (final (main initial))).
Proof.
  split; [intros; repeat split|].
  split; [|split; [|split]].
  - intros s name breed. exists (fresh (dom (heap s))); eexists.
    split; [apply instantiate_Dog|].
    erewrite bark_on_Dog;
      [ | apply with_object_lookup | reflexivity
        | simpl; by apply dog_dict_other ].
    unfold dict_of. simpl. by rewrite lookup_insert_eq.
  - intros s name. exists (fresh (dom (heap s))); eexists.
    split; [apply instantiate_Animal|].
    erewrite speak_on_Animal;
      [ | apply with_object_lookup | reflexivity
        | simpl; by apply animal_dict_other ].
    unfold dict_of. simpl. by rewrite lookup_insert_eq.
  - intros s name. exists (fresh (dom (heap s))); eexists.
    split; [apply instantiate_Cat|].
    erewrite speak_on_Cat;
      [ | apply with_object_lookup | reflexivity
        | simpl; by apply animal_dict_other ].
    unfold dict_of. simpl. by rewrite lookup_insert_eq.
  - intros n. rewrite heap_final.
    destruct (heap_after_cases n) as [-> | [-> | ->]].
    + apply map_empty_subseteq.
    + apply insert_subseteq. by rewrite lookup_insert_ne.
    + reflexivity.
Qed.

(** C1, as the spec states it, fails: the module body is not the seven
    listed steps, and running those seven steps leaves a console that
    differs from the one the script leaves.  The script also executes
    [print(my_dog.name)], which writes the line [Fido]. *)
Lemma toplevel_is_not_the_seven_steps :
  toplevel <> spec_toplevel
  /\ stdout (final (exec spec_toplevel initial)) = lines ["Woof!"; "Meow!"]
  /\ stdout (final (main initial))
     <> stdout (final (exec spec_toplevel initial)).
Proof.
  split; [|split].
  - intros H. apply (f_equal (@length _)) in H. discriminate H.
  - vm_compute. reflexivity.
  - vm_compute. discriminate.
Qed.

(** C1, amended.  The module body is, in order: define [Dog], build
    [my_dog], print [my_dog.name], call [my_dog.bark()], define [Animal],
    define [Cat], build [my_cat], call [my_cat.speak()].  The run succeeds;
    the third, fourth and eighth statements each append one line to the
    console ([Fido], [Woof!], [Meow!]) and the other five append nothing,
    so the console ends up holding exactly these three lines. *)
Theorem toplevel_prints_Fido_Woof_Meow :
  toplevel = [ def_Dog; new_my_dog; print_my_dog_name; call_my_dog_bark;
               def_Animal; def_Cat; new_my_cat; call_my_cat_speak ]
  /\ succeeds (main initial)
  /\ console_trace toplevel initial
     = [ lines []; lines [];
         lines ["Fido"]; lines ["Fido"; "Woof!"];
         lines ["Fido"; "Woof!"]; lines ["Fido"; "Woof!"];
         lines ["Fido"; "Woof!"]; lines ["Fido"; "Woof!"; "Meow!"] ]
  /\ stdout (final (main initial)) = lines ["Fido"; "Woof!"; "Meow!"].
Proof.
  split; [reflexivity|].
  split; [vm_compute; exact I|].
  split; vm_compute; reflexivity.
Qed.


(** ** Beyond the script: allocation, arity, missing attributes *)


Lemma append_nil_r (a : string) : a ++ "" = a.
Proof.
  induction a as [|x a IH]; [reflexivity|].
  change (String x (a ++ "") = String x a).
  f_equal. exact IH.
Qed.

Lemma with_object_fresh_frame (s : state) (o : object) :
  let l := fresh (dom (heap s)) in
  heap s !! l = None
  /\ delete l (heap (with_object s l o)) = heap s
  /\ globals (with_object s l o) = globals s
  /\ stdout (with_object s l o) = stdout s.
Proof.
  intros l. pose proof (alloc_fresh s) as Hl. fold l in Hl.
  split; [exact Hl|]. split; [|split; reflexivity].
  simpl. rewrite delete_insert_eq. by apply delete_id.
Qed.

(** X1.  A construction allocates exactly one instance, at an address that
    was free: taking that address out of the new heap gives the old heap
    back, so no earlier instance is touched; the module namespace and the
    console stay as they were. *)
Theorem construction_allocates_one_instance :
  forall (s : state) (name breed : value),
    (exists (l : loc) (s' : state),
        call (VClass Dog) [name; breed] s = Ok (VRef l) s'
        /\ heap s !! l = None /\ delete l (heap s') = heap s
        /\ globals s' = globals s /\ stdout s' = stdout s)
    /\ (exists (l : loc) (s' : state),
          call (VClass Animal) [name] s = Ok (VRef l) s'
          /\ heap s !! l = None /\ delete l (heap s') = heap s
          /\ globals s' = globals s /\ stdout s' = stdout s)
    /\ (exists (l : loc) (s' : state),
          call (VClass Cat) [name] s = Ok (VRef l) s'
          /\ heap s !! l = None /\ delete l (heap s') = heap s
          /\ globals s' = globals s /\ stdout s' = stdout s).
Proof.
  intros s name breed. split; [|split].
  - exists (fresh (dom (heap s))); eexists.
    split; [apply instantiate_Dog | apply with_object_fresh_frame].
  - exists (fresh (dom (heap s))); eexists.
    split; [apply instantiate_Animal | apply with_object_fresh_frame].
  - exists (fresh (dom (heap s))); eexists.
    split; [apply instantiate_Cat | apply with_object_fresh_frame].
Qed.

(** A function applied to a list of arguments whose length is not the
    number of its parameters raises [TypeError] before running any of its
    body. *)
Lemma apply_func_wrong_arity (f : func) (args : list value) (s : state) :
  length args <> arity f ->
  apply_func f args s
  = Raise (TypeError (func_qualname f ++ "(): wrong number of arguments")) s.
Proof.
  intros H.
  destruct f; destruct args as [|a [|b [|c [|d rest]]]];
    simpl in H; try (exfalso; apply H; reflexivity); reflexivity.
Qed.

(** X2.  Calling a bound method with a number of arguments other than what
    its [def] takes besides [self] (two for [Dog.__init__], one for the
    other two [__init__], none for [bark] and [speak]) raises [TypeError]
    and changes nothing: no output, no attribute written. *)
Theorem method_call_wrong_arity_raises :
  forall (f : func) (self : value) (args : list value) (s : state),
    S (length args) <> arity f ->
    exists msg : string,
      call (VMethod f self) args s = Raise (TypeError msg) s.
Proof.
  intros f self args s H. eexists. unfold call.
  apply apply_func_wrong_arity. exact H.
Qed.

Lemma method_call_wrong_arity_raises_witness :
  S (length [VInt 1]) <> arity FDog_bark
  /\ exists msg : string,
       call (VMethod FDog_bark (VRef 0)) [VInt 1] after_my_dog
       = Raise (TypeError msg) after_my_dog.
Proof.
  split; [discriminate|].
  apply (method_call_wrong_arity_raises FDog_bark (VRef 0) [VInt 1]).
  discriminate.
Defined.

Lemma init_of_class (c : cls) :
  exists f : func,
    lookup_mro (mro c) "__init__" = Some f /\ arity f = S (ctor_arity c).
Proof.
  destruct c;
    [exists FDog_init | exists FAnimal_init | exists FCat_init];
    split; reflexivity.
Qed.

(** X3.  A class called with a number of arguments other than what its
    [__init__] takes besides [self] (two for [Dog], one for [Animal] and
    for [Cat]) raises [TypeError]: nothing is printed, no module-level name
    changes and every instance that existed is still there unchanged. *)
Theorem constructor_wrong_arity_raises :
  forall (c : cls) (args : list value) (s : state),
    length args <> ctor_arity c ->
    exists (msg : string) (s' : state),
      call (VClass c) args s = Raise (TypeError msg) s'
      /\ stdout s' = stdout s
      /\ globals s' = globals s
      /\ heap s ⊆ heap s'.
Proof.
  intros c args s H.
  destruct (init_of_class c) as (f & Hf & Ha).
  do 2 eexists. unfold call, instantiate, bind. rewrite alloc_eq, Hf.
  cbv beta iota.
  rewrite apply_func_wrong_arity by (simpl; rewrite Ha; congruence).
  split; [reflexivity|]. split; [reflexivity|]. split; [reflexivity|].
  simpl. apply insert_subseteq, alloc_fresh.
Qed.

Lemma constructor_wrong_arity_raises_witness :
  length [VStr "Fido"] <> ctor_arity Dog
  /\ exists (msg : string) (s' : state),
       call (VClass Dog) [VStr "Fido"] initial = Raise (TypeError msg) s'
       /\ stdout s' = stdout initial
       /\ globals s' = globals initial
       /\ heap initial ⊆ heap s'.
Proof.
  split; [discriminate|].
  apply (constructor_wrong_arity_raises Dog [VStr "Fido"] initial).
  discriminate.
Defined.

(** X4.  The two examples do not share behaviour: a [Dog] is not an
    [Animal] and [speak()] on it raises [AttributeError]; an [Animal] or a
    [Cat] has no [bark], and a plain [Animal] is not a [Cat]. *)
Theorem Dog_and_Animal_are_unrelated :
  forall (s : state) (name breed : value),
    (exists (l : loc) (s' : state),
        call (VClass Dog) [name; breed] s = Ok (VRef l) s'
        /\ isinstance s' (VRef l) Animal = false
        /\ isinstance s' (VRef l) Cat = false
        /\ call_method None (VRef l) "speak" [] s'
           = Raise (AttributeError "speak") s')
    /\ (exists (l : loc) (s' : state),
          call (VClass Animal) [name] s = Ok (VRef l) s'
          /\ isinstance s' (VRef l) Dog = false
          /\ isinstance s' (VRef l) Cat = false
          /\ call_method None (VRef l) "bark" [] s'
             = Raise (AttributeError "bark") s')
    /\ (exists (l : loc) (s' : state),
          call (VClass Cat) [name] s = Ok (VRef l) s'
          /\ isinstance s' (VRef l) Dog = false
          /\ call_method None (VRef l) "bark" [] s'
             = Raise (AttributeError "bark") s').
Proof.
  intros s name breed. split; [|split].
  - exists (fresh (dom (heap s))); eexists.
    split; [apply instantiate_Dog|].
    split; [unfold isinstance; rewrite with_object_lookup; reflexivity|].
    split; [unfold isinstance; rewrite with_object_lookup; reflexivity|].
    unfold call_method, bind.
    erewrite get_attr_missing;
      [reflexivity | apply with_object_lookup
       | simpl; by apply dog_dict_other | reflexivity].
  - exists (fresh (dom (heap s))); eexists.
    split; [apply instantiate_Animal|].
    split; [unfold isinstance; rewrite with_object_lookup; reflexivity|].
    split; [unfold isinstance; rewrite with_object_lookup; reflexivity|].
    unfold call_method, bind.
    erewrite get_attr_missing;
      [reflexivity | apply with_object_lookup
       | simpl; by apply animal_dict_other | reflexivity].
  - exists (fresh (dom (heap s))); eexists.
    split; [apply instantiate_Cat|].
    split; [unfold isinstance; rewrite with_object_lookup; reflexivity|].
    unfold call_method, bind.
    erewrite get_attr_missing;
      [reflexivity | apply with_object_lookup
       | simpl; by apply animal_dict_other | reflexivity].
Qed.

(** X5.  Unlike the name of an [Animal], the [name] and [breed] of a
    [Dog] are plain attributes: they read back from the module level and
    from the body of any class alike. *)
Theorem Dog_attributes_are_public :
  forall (s : state) (name breed : value),
    exists (l : loc) (s' : state),
      call (VClass Dog) [name; breed] s = Ok (VRef l) s'
      /\ forall ctx : option cls,
           get_attr ctx (VRef l) "name" s' = Ok name s'
           /\ get_attr ctx (VRef l) "breed" s' = Ok breed s'.
Proof.
  intros s name breed.
  exists (fresh (dom (heap s))); eexists.
  split; [apply instantiate_Dog|].
  intros ctx. split.
  - eapply get_attr_field; [apply with_object_lookup|].
    rewrite mangle_plain by reflexivity. apply dog_dict_name.
  - eapply get_attr_field; [apply with_object_lookup|].
    rewrite mangle_plain by reflexivity. apply dog_dict_breed.
Qed.

(** X6.  Instances do not share state: of two [Dog]s built one after the
    other, each sits at its own address and still reads back its own name
    and breed after the second has been built. *)
Theorem instances_do_not_share_state :
  forall (s : state) (name1 breed1 name2 breed2 : value),
    exists (l1 l2 : loc) (s1 s2 : state),
      call (VClass Dog) [name1; breed1] s = Ok (VRef l1) s1
      /\ call (VClass Dog) [name2; breed2] s1 = Ok (VRef l2) s2
      /\ l1 <> l2
      /\ get_attr None (VRef l1) "name" s2 = Ok name1 s2
      /\ get_attr None (VRef l1) "breed" s2 = Ok breed1 s2
      /\ get_attr None (VRef l2) "name" s2 = Ok name2 s2
      /\ get_attr None (VRef l2) "breed" s2 = Ok breed2 s2.
Proof.
  intros s name1 breed1 name2 breed2.
  set (l1 := fresh (dom (heap s))).
  set (s1 := with_object s l1 (mkObject Dog (dog_dict name1 breed1))).
  set (l2 := fresh (dom (heap s1))).
  exists l1, l2, s1; eexists.
  split; [apply instantiate_Dog|].
  split; [apply instantiate_Dog|].
  fold l2.
  assert (Hne : l2 <> l1).
  { intros E. pose proof (alloc_fresh s1) as Hf. fold l2 in Hf.
    rewrite E in Hf. unfold s1 in Hf.
    rewrite with_object_lookup in Hf. discriminate Hf. }
  assert (H1 : heap (with_object s1 l2 (mkObject Dog (dog_dict name2 breed2)))
               !! l1 = Some (mkObject Dog (dog_dict name1 breed1))).
  { simpl. rewrite lookup_insert_ne by exact Hne.
    apply (with_object_lookup s l1). }
  split; [congruence|].
  split; [eapply get_attr_field; [exact H1 | apply dog_dict_name]|].
  split; [eapply get_attr_field; [exact H1 | apply dog_dict_breed]|].
  split.
  - eapply get_attr_field; [apply with_object_lookup | apply dog_dict_name].
  - eapply get_attr_field; [apply with_object_lookup | apply dog_dict_breed].
Qed.

(** ** The statements of the module in an arbitrary state *)

Section Statements.

Variable s : state.







End Statements.







